(** * crystal_classes: crystal class identifiers of the Mindat API

    A shallow embedding of [scripts/crystal_classes.py] and the proofs of its
    specification.  The module consists of two module-level dictionaries and
    two functions reading them.

    Python data is modelled as follows.
    - [int] is [Z] (unbounded), [None] as an argument is the [None] of
      [option Z].
    - converting an [int] to text raises [ValueError] when the number has
      more decimal digits than the interpreter's limit, which is 4300 unless
      it is reconfigured; the module does not reconfigure it.
    - [str] is [string]; a non-ASCII character stands for its UTF-8 bytes.
    - [dict] is a [gmap]; a dictionary display inserts its items from left to
      right, so a repeated key keeps the last value.
    - [d.get(k, default)] never raises; [d[k]] raises [KeyError] on a missing
      key.
    - the module-level names live in a store that every call receives and
      returns, so that a function changing a table would show in its type
      and in its result. *)

From stdpp Require Import gmap strings pretty list fin_maps.

Open Scope string_scope.
Open Scope Z_scope.

(** ** The fragment of Python used by the module *)

Module Py.

(** Values that occur as dictionary values of the module: strings and lists
    of strings. *)
Inductive value :=
  | VStr (s : string)
  | VList (l : list string).

#[global] Instance value_eq_dec : EqDecision value.
Proof. solve_decision. Defined.

(** Exceptions the modelled operations can raise; the message of a
    [ValueError] is not modelled. *)
Inductive exn :=
  | KeyError (k : string)
  | ValueError.

(** A dictionary display [{k1: v1, ..., kn: vn}]: the items are stored from
    left to right. *)
Definition dict_literal `{Countable K} {V} (items : list (K * V)) : gmap K V :=
  foldl (λ d kv, <[kv.1 := kv.2]> d) ∅ items.

(** [d.get(k, default)]. *)
Definition dict_get `{Countable K} {V} (d : gmap K V) (k : K) (dflt : V) : V :=
  default dflt (d !! k).

(** The decimal digits of an integer, with a leading minus sign for a
    negative number. *)
Definition decimal (n : Z) : string := pretty n.

(** The number of decimal digits of an integer; the sign is not counted. *)
Definition digits (n : Z) : nat := String.length (decimal (Z.abs n)).

(** [sys.get_int_max_str_digits()], at its default. *)
Definition int_max_str_digits : nat := 4300.

(** Computations over a store [S]: a call receives the store, and returns
    either an exception or a value, together with the store it leaves. *)
Definition M (S A : Type) : Type := S → (exn + A) * S.

#[global] Instance M_ret {S} : MRet (M S) := λ A x s, (inr x, s).

#[global] Instance M_bind {S} : MBind (M S) := λ A B f m s,
  match m s with
  | (inl e, s') => (inl e, s')
  | (inr x, s') => f x s'
  end.

Definition raise {S A} (e : exn) : M S A := λ s, (inl e, s).

(** Reading a global name: the projection [f] selects it in the store. *)
Definition load_global {S A} (f : S → A) : M S A := λ s, (inr (f s), s).

(** [str(n)] for an [int], which is also how an f-string field [{n}] with no
    format specification renders it: the decimal digits, unless there are
    more of them than the limit allows. *)
Definition str {S} (n : Z) : M S string :=
  if decide (digits n ≤ int_max_str_digits)%nat
  then mret (decimal n)
  else raise ValueError.

(** The subscription [d[k]]. *)
Definition subscript {S V} (d : gmap string V) (k : string) : M S V :=
  match d !! k with
  | Some v => mret v
  | None => raise (KeyError k)
  end.

End Py.

Import Py.

(** ** The module's globals *)

(** [CRYSTAL_CLASS_LOOKUP]: crystal class ID to name mapping. *)
Definition CRYSTAL_CLASS_LOOKUP : gmap Z string :=
  dict_literal [
    (1, "Isometric (Cubic)");
    (2, "Hexagonal");
    (3, "Tetragonal");
    (4, "Orthorhombic");
    (5, "Monoclinic");
    (6, "Triclinic");
    (7, "Trigonal");
    (8, "Amorphous")
  ].

(** [CRYSTAL_SYSTEM_INFO]: additional information about crystal systems. *)
Definition CRYSTAL_SYSTEM_INFO : gmap string (gmap string value) :=
  dict_literal [
    ("Isometric (Cubic)", dict_literal [
      ("description", VStr "Has three equal axes at right angles. Characterized by high symmetry and includes common minerals like pyrite, halite, and fluorite.");
      ("examples", VList ["Pyrite"; "Halite"; "Fluorite"; "Galena"; "Diamond"])
    ]);
    ("Hexagonal", dict_literal [
      ("description", VStr "Has three equal axes in one plane at 120° angles, and a fourth axis perpendicular to this plane. Includes minerals like beryl and apatite.");
      ("examples", VList ["Beryl"; "Apatite"; "Vanadinite"])
    ]);
    ("Tetragonal", dict_literal [
      ("description", VStr "Has three axes at right angles, with two being equal in length. Includes minerals like zircon and rutile.");
      ("examples", VList ["Zircon"; "Rutile"; "Vesuvianite"])
    ]);
    ("Orthorhombic", dict_literal [
      ("description", VStr "Has three unequal axes at right angles. Includes minerals like olivine and topaz.");
      ("examples", VList ["Olivine"; "Topaz"; "Baryte"; "Aragonite"])
    ]);
    ("Monoclinic", dict_literal [
      ("description", VStr "Has three unequal axes with one oblique intersection. Includes minerals like gypsum and orthoclase.");
      ("examples", VList ["Gypsum"; "Orthoclase"; "Hornblende"; "Malachite"])
    ]);
    ("Triclinic", dict_literal [
      ("description", VStr "Has three unequal axes with oblique intersections. The least symmetrical system, including minerals like plagioclase and kyanite.");
      ("examples", VList ["Plagioclase"; "Kyanite"; "Turquoise"; "Microcline"])
    ]);
    ("Trigonal", dict_literal [
      ("description", VStr "Previously considered part of the hexagonal system, it has three equal axes at 120° angles. Includes quartz and calcite.");
      ("examples", VList ["Quartz"; "Calcite"; "Corundum"; "Tourmaline"])
    ]);
    ("Amorphous", dict_literal [
      ("description", VStr "No definite crystalline structure. Includes minerals like opal which lack a regular internal atomic arrangement.");
      ("examples", VList ["Opal"; "Obsidian"; "Limonite"])
    ])
  ].

(** The store of module-level names the two functions read. *)
Record globals := Globals {
  class_lookup : gmap Z string;
  system_info : gmap string (gmap string value)
}.

(** The store once the module has been imported. *)
Definition module_globals : globals :=
  {| class_lookup := CRYSTAL_CLASS_LOOKUP;
     system_info := CRYSTAL_SYSTEM_INFO |}.

(** ** The two functions *)

(** [get_crystal_class_name(class_id)]: convert a crystal class ID to a
    human-readable crystal system name. *)
Definition get_crystal_class_name (class_id : option Z) : M globals string :=
  match class_id with
  | None => mret "Unknown"
  | Some n =>
      table ← load_global class_lookup;
      field ← str n;
      mret (dict_get table n ("Unknown Crystal Class (" +:+ field +:+ ")"))
  end.

(** [get_crystal_system_info(class_id)]: the dictionary with the crystal
    system name, its description and its examples. *)
Definition get_crystal_system_info (class_id : option Z)
    : M globals (gmap string value) :=
  name ← get_crystal_class_name class_id;
  table ← load_global system_info;
  let info := dict_get table name (dict_literal [
      ("description", VStr "No additional information available for this crystal system.");
      ("examples", VList [])
    ]) in
  description ← subscript info "description";
  examples ← subscript info "examples";
  mret (dict_literal [
    ("name", VStr name);
    ("description", description);
    ("examples", examples)
  ]).

(** The outcome of a call made right after the module has been imported. *)
Definition call {A} (m : M globals A) : exn + A := (m module_globals).1.

(** Shorthands for the statements below: the dictionary
    [get_crystal_system_info] builds on its last line, and the description
    of its default entry. *)
Definition info_dict (name : string) (description examples : value)
    : gmap string value :=
  dict_literal [
    ("name", VStr name);
    ("description", description);
    ("examples", examples)
  ].

Definition no_info : string :=
  "No additional information available for this crystal system.".

(** ** Strings *)





(** The decimal rendering of integers: digits without leading zeros, a
    minus sign for negative numbers, and no two integers share one. *)
Lemma decimal_examples :
  decimal 99 = "99" ∧ decimal 0 = "0" ∧ decimal (-5) = "-5" ∧
  decimal 1000 = "1000".
Proof. repeat split; vm_compute; reflexivity. Qed.


(** The rendering of a natural number has at most [k] digits exactly when
    the number is below the [k]-th power of ten. *)
Lemma pretty_N_go_length_ge (x : N) (s : string) :
  (String.length s ≤ String.length (pretty_N_go x s))%nat.
Proof.
  revert s. induction (N.lt_wf_0 x) as [x _ IH]; intros s.
  destruct (decide (x = 0)%N) as [->|Hx].
  - by rewrite pretty_N_go_0.
  - rewrite pretty_N_go_step by lia.
    etrans; [|apply IH; apply N.div_lt; lia]. cbn [String.length]. lia.
Qed.

Lemma pretty_N_go_length_le (k : nat) (x : N) (s : string) :
  (String.length (pretty_N_go x s) ≤ k + String.length s)%nat ↔
  (x < 10 ^ N.of_nat k)%N.
Proof.
  revert x s. induction k as [|k IH]; intros x s.
  - destruct (decide (x = 0)%N) as [->|Hx].
    + rewrite pretty_N_go_0. split; [by intros _ | intros _; lia].
    + rewrite pretty_N_go_step by lia. split; [|cbn; lia].
      pose proof (pretty_N_go_length_ge (x `div` 10)
                    (String (pretty_N_char (x `mod` 10)) s)) as Hge.
      cbn [String.length] in Hge. lia.
  - destruct (decide (x = 0)%N) as [->|Hx].
    + rewrite pretty_N_go_0. split; [intros _ | intros _; lia].
      apply N.neq_0_lt_0, N.pow_nonzero. lia.
    + rewrite pretty_N_go_step by lia.
      rewrite Nat2N.inj_succ, N.pow_succ_r'.
      specialize (IH (x `div` 10)%N (String (pretty_N_char (x `mod` 10)) s)).
      cbn [String.length] in IH.
      assert ((x `div` 10 < 10 ^ N.of_nat k)%N ↔ (x < 10 * 10 ^ N.of_nat k)%N)
        as <-.
      { pose proof (N.div_mod x 10 ltac:(lia)) as Hdm.
        pose proof (N.mod_lt x 10 ltac:(lia)) as Hm.
        generalize dependent (x `div` 10)%N.
        generalize dependent (x `mod` 10)%N.
        generalize (10 ^ N.of_nat k)%N. intros; lia. }
      rewrite <-IH. lia.
Qed.

Lemma digits_le (k : nat) (n : Z) :
  (0 < k)%nat → (digits n ≤ k)%nat ↔ Z.abs n < 10 ^ Z.of_nat k.
Proof.
  intros Hk. unfold digits, decimal, pretty, pretty_Z.
  assert (Hpow : 10 ^ Z.of_nat k = Z.of_N (10 ^ N.of_nat k)).
  { rewrite N2Z.inj_pow. by rewrite nat_N_Z. }
  rewrite Hpow.
  destruct (Z.abs n) as [|p|p] eqn:Habs; [| |lia].
  - cbn [String.length]. split; [intros _|lia].
    assert (0 < 10 ^ N.of_nat k)%N by (apply N.neq_0_lt_0, N.pow_nonzero; lia).
    lia.
  - unfold pretty_positive, pretty, pretty_N. rewrite decide_False by done.
    pose proof (pretty_N_go_length_le k (N.pos p) "") as Hle.
    cbn [String.length] in Hle. rewrite Nat.add_0_r in Hle. rewrite Hle. lia.
Qed.

(** The integers [str] converts are those below the 4300th power of ten in
    absolute value. *)
Lemma digits_cap (n : Z) :
  (digits n ≤ int_max_str_digits)%nat ↔ Z.abs n < 10 ^ 4300.
Proof. apply (digits_le int_max_str_digits n). unfold int_max_str_digits. lia. Qed.

Lemma cap_ge_10 : 10 ≤ 10 ^ 4300.
Proof. exact (Z.pow_le_mono_r 10 1 4300 eq_refl ltac:(lia)). Qed.

Lemma cap_ge_10000 : 10000 ≤ 10 ^ 4300.
Proof. exact (Z.pow_le_mono_r 10 4 4300 eq_refl ltac:(lia)). Qed.

Lemma small_within_cap (n : Z) : -10000 < n < 10000 → Z.abs n < 10 ^ 4300.
Proof. pose proof cap_ge_10000. generalize dependent (10 ^ 4300). lia. Qed.


(** ** The contents of the two tables *)

(** A dictionary display is the chain of insertions of its items. *)
Lemma dict_literal_snoc `{Countable K} {V} (items : list (K * V)) k v :
  dict_literal (items ++ [(k, v)]) = <[k := v]> (dict_literal items).
Proof. unfold dict_literal. by rewrite foldl_app. Qed.

Lemma CRYSTAL_CLASS_LOOKUP_unfold :
  CRYSTAL_CLASS_LOOKUP =
    <[8 := "Amorphous"]> (<[7 := "Trigonal"]> (<[6 := "Triclinic"]>
    (<[5 := "Monoclinic"]> (<[4 := "Orthorhombic"]> (<[3 := "Tetragonal"]>
    (<[2 := "Hexagonal"]> (<[1 := "Isometric (Cubic)"]> ∅))))))).
Proof. reflexivity. Qed.

(** The keys of the class table are the integers 1 to 8. *)
Lemma CRYSTAL_CLASS_LOOKUP_None (n : Z) :
  ¬ (1 ≤ n ≤ 8) → CRYSTAL_CLASS_LOOKUP !! n = None.
Proof.
  intros Hn. rewrite CRYSTAL_CLASS_LOOKUP_unfold.
  rewrite !lookup_insert_ne by lia. apply lookup_empty.
Qed.


(** The keys of the info table are the eight crystal system names. *)
Lemma dom_CRYSTAL_SYSTEM_INFO :
  dom CRYSTAL_SYSTEM_INFO =
    list_to_set ["Isometric (Cubic)"; "Hexagonal"; "Tetragonal";
                 "Orthorhombic"; "Monoclinic"; "Triclinic"; "Trigonal";
                 "Amorphous"].
Proof. vm_compute. reflexivity. Qed.

(** No key of the info table starts with "Unknown". *)
Lemma CRYSTAL_SYSTEM_INFO_None (s : string) :
  CRYSTAL_SYSTEM_INFO !! ("Unknown" +:+ s) = None.
Proof.
  apply not_elem_of_dom. rewrite dom_CRYSTAL_SYSTEM_INFO, elem_of_list_to_set.
  intros Hin.
  repeat (apply elem_of_cons in Hin as [Hin|Hin]; [discriminate Hin|]).
  by apply elem_of_nil in Hin.
Qed.



Lemma between_1_8 (n : Z) :
  1 ≤ n ≤ 8 →
  n = 1 ∨ n = 2 ∨ n = 3 ∨ n = 4 ∨ n = 5 ∨ n = 6 ∨ n = 7 ∨ n = 8.
Proof. lia. Qed.

(** ** What a call computes *)

(** The three keys of the returned dictionary. *)
Lemma info_dict_lookup name description examples :
  info_dict name description examples !! "name" = Some (VStr name) ∧
  info_dict name description examples !! "description" = Some description ∧
  info_dict name description examples !! "examples" = Some examples.
Proof.
  unfold info_dict, dict_literal; cbn [foldl fst snd].
  split_and!.
  - rewrite 2!lookup_insert_ne by done. apply lookup_insert_eq.
  - rewrite lookup_insert_ne by done. apply lookup_insert_eq.
  - apply lookup_insert_eq.
Qed.

Lemma dom_info_dict (name : string) (description examples : value) :
  dom (info_dict name description examples) =
    ({["name"; "description"; "examples"]} : gset string).
Proof.
  unfold info_dict, dict_literal; cbn [foldl fst snd].
  rewrite !dom_insert_L, dom_empty_L. set_solver.
Qed.

(** In any store: what a call returns and the store it leaves. *)
Section any_store.

Context (g : globals).

(** The name function reads the class table, converts the identifier, and
    leaves the store alone. *)
Lemma get_crystal_class_name_run (class_id : option Z) :
  get_crystal_class_name class_id g =
    (match class_id with
     | None => inr "Unknown"
     | Some n =>
         if decide (digits n ≤ int_max_str_digits)%nat
         then inr (dict_get (class_lookup g) n
                     ("Unknown Crystal Class (" +:+ decimal n +:+ ")"))
         else inl ValueError
     end, g).
Proof.
  destruct class_id as [n|]; [|done].
  unfold get_crystal_class_name, mbind, M_bind, load_global, str.
  by case_decide.
Qed.

(** The info function passes on an exception of the name function; with a
    name, it reads the info table, can fail at a subscription, and leaves
    the store alone in every case. *)
Lemma get_crystal_system_info_run (class_id : option Z) :
  get_crystal_system_info class_id g =
    (match (get_crystal_class_name class_id g).1 with
     | inl e => inl e
     | inr name =>
         let info :=
           dict_get (system_info g) name
             (dict_literal [("description", VStr no_info);
                            ("examples", VList [])]) in
         match info !! "description", info !! "examples" with
         | Some description, Some examples =>
             inr (info_dict name description examples)
         | Some _, None => inl (KeyError "examples")
         | None, _ => inl (KeyError "description")
         end
     end, g).
Proof.
  unfold get_crystal_system_info, mbind, M_bind.
  rewrite get_crystal_class_name_run.
  set (outcome := match class_id with Some _ => _ | None => _ end).
  cbn [fst]. destruct outcome as [e|name]; [done|].
  cbv beta iota zeta delta [load_global subscript].
  set (info := dict_get _ _ _).
  destruct (info !! "description") as [d|]; [|done].
  by destruct (info !! "examples").
Qed.

End any_store.

(** In the store of the imported module. *)

Lemma call_name_within_cap (n : Z) :
  Z.abs n < 10 ^ 4300 →
  call (get_crystal_class_name (Some n)) =
    inr (dict_get CRYSTAL_CLASS_LOOKUP n
           ("Unknown Crystal Class (" +:+ decimal n +:+ ")")).
Proof.
  intros Hn%digits_cap. unfold call. rewrite get_crystal_class_name_run.
  by rewrite decide_True.
Qed.

Lemma call_name_over_cap (n : Z) :
  ¬ (Z.abs n < 10 ^ 4300) →
  call (get_crystal_class_name (Some n)) = inl ValueError.
Proof.
  rewrite <-digits_cap. intros Hn. unfold call.
  rewrite get_crystal_class_name_run. by rewrite decide_False.
Qed.

(** An exception of the name function is the outcome of the info
    function. *)
Lemma call_info_raise (class_id : option Z) (e : exn) :
  call (get_crystal_class_name class_id) = inl e →
  call (get_crystal_system_info class_id) = inl e.
Proof.
  unfold call. rewrite get_crystal_system_info_run. cbn [fst].
  by intros ->.
Qed.

(** Without an entry for the name, the default entry is used. *)
Lemma call_info_default (class_id : option Z) (name : string) :
  call (get_crystal_class_name class_id) = inr name →
  CRYSTAL_SYSTEM_INFO !! name = None →
  call (get_crystal_system_info class_id) =
    inr (info_dict name (VStr no_info) (VList [])).
Proof.
  unfold call. rewrite get_crystal_system_info_run. cbn [fst].
  intros -> Hnone. cbn [module_globals system_info]. unfold dict_get.
  rewrite Hnone. reflexivity.
Qed.

(** With an entry for the name that has both keys, the entry is used. *)
Lemma call_info_entry (class_id : option Z) (name : string)
    (entry : gmap string value) (description examples : value) :
  call (get_crystal_class_name class_id) = inr name →
  CRYSTAL_SYSTEM_INFO !! name = Some entry →
  entry !! "description" = Some description →
  entry !! "examples" = Some examples →
  call (get_crystal_system_info class_id) =
    inr (info_dict name description examples).
Proof.
  unfold call. rewrite get_crystal_system_info_run. cbn [fst].
  intros -> Hentry Hd He. cbn [module_globals system_info]. unfold dict_get.
  rewrite Hentry. cbn [default from_option id]. by rewrite Hd, He.
Qed.

(** An identifier of the class table: the name is the table's, and the info
    table has an entry for it.  The tables show that the name and the
    description are not empty, that the description is not the one of the
    default entry, and that the examples are a non-empty list of non-empty
    strings. *)
Lemma call_known (n : Z) :
  1 ≤ n ≤ 8 →
  ∃ name entry description examples,
    CRYSTAL_CLASS_LOOKUP !! n = Some name ∧
    call (get_crystal_class_name (Some n)) = inr name ∧
    CRYSTAL_SYSTEM_INFO !! name = Some entry ∧
    entry !! "description" = Some (VStr description) ∧
    entry !! "examples" = Some (VList examples) ∧
    call (get_crystal_system_info (Some n)) =
      inr (info_dict name (VStr description) (VList examples)) ∧
    String.prefix "Unknown" name = false ∧ name ≠ "" ∧
    description ≠ "" ∧ description ≠ no_info ∧
    examples ≠ [] ∧ Forall (λ s, s ≠ "") examples.
Proof.
  intros Hn.
  assert (∃ name entry description examples,
    CRYSTAL_CLASS_LOOKUP !! n = Some name ∧
    CRYSTAL_SYSTEM_INFO !! name = Some entry ∧
    entry !! "description" = Some (VStr description) ∧
    entry !! "examples" = Some (VList examples) ∧
    String.prefix "Unknown" name = false ∧ name ≠ "" ∧
    description ≠ "" ∧ description ≠ no_info ∧
    examples ≠ [] ∧ Forall (λ s, s ≠ "") examples)
    as (name & entry & d & x & Hlook & Hentry & Hd & Hx & Hrest).
  { destruct (between_1_8 n Hn)
      as [->| [->| [->| [->| [->| [->| [->| ->]]]]]]];
      eexists _, _, _, _; split_and!; try reflexivity; try discriminate;
      repeat constructor; discriminate. }
  assert (Hname : call (get_crystal_class_name (Some n)) = inr name).
  { rewrite call_name_within_cap by (apply small_within_cap; lia).
    unfold dict_get. by rewrite Hlook. }
  exists name, entry, d, x. split_and!; try done; try apply Hrest.
  by apply call_info_entry with entry.
Qed.

(** The four ways [get_crystal_class_name] comes to its outcome. *)
Lemma call_name_cases (class_id : option Z) :
  (class_id = None ∧
   call (get_crystal_class_name class_id) = inr "Unknown") ∨
  (∃ n s, class_id = Some n ∧ 1 ≤ n ≤ 8 ∧
     CRYSTAL_CLASS_LOOKUP !! n = Some s ∧
     call (get_crystal_class_name class_id) = inr s) ∨
  (∃ n, class_id = Some n ∧ ¬ (1 ≤ n ≤ 8) ∧ Z.abs n < 10 ^ 4300 ∧
     call (get_crystal_class_name class_id) =
       inr ("Unknown Crystal Class (" +:+ decimal n +:+ ")")) ∨
  (∃ n, class_id = Some n ∧ ¬ (1 ≤ n ≤ 8) ∧ ¬ (Z.abs n < 10 ^ 4300) ∧
     call (get_crystal_class_name class_id) = inl ValueError).
Proof.
  destruct class_id as [n|]; [right | by left].
  destruct (decide (1 ≤ n ≤ 8)) as [Hn|Hn].
  - left. destruct (call_known n Hn) as (name & _ & _ & _ & ? & ? & _).
    by exists n, name.
  - right. destruct (decide (Z.abs n < 10 ^ 4300)) as [Hcap|Hcap];
      [left | right]; exists n; split_and!; try done.
    + rewrite call_name_within_cap by done. unfold dict_get.
      by rewrite (CRYSTAL_CLASS_LOOKUP_None n Hn).
    + by apply call_name_over_cap.
Qed.

(** A returned name of an identifier outside the class table starts with
    "Unknown". *)
Lemma call_unknown (class_id : option Z) (name : string) :
  call (get_crystal_class_name class_id) = inr name →
  class_id = None ∨ (∃ n, class_id = Some n ∧ ¬ (1 ≤ n ≤ 8)) →
  ∃ s, name = "Unknown" +:+ s.
Proof.
  intros Hname Hunk.
  destruct (call_name_cases class_id)
    as [[_ Hcall]|[(n & s & -> & Hn & _)|[(n & -> & _ & _ & Hcall)
       |(n & -> & _ & _ & Hcall)]]];
    rewrite ?Hcall in Hname.
  - injection Hname as <-. by exists "".
  - destruct Hunk as [[=]|(? & [= <-] & ?)]. done.
  - injection Hname as <-.
    by exists (" Crystal Class (" +:+ decimal n +:+ ")").
  - done.
Qed.

(** What both calls come to, by the kind of identifier. *)
Lemma call_both_cases (class_id : option Z) :
  (∃ n name description examples,
     class_id = Some n ∧ 1 ≤ n ≤ 8 ∧
     call (get_crystal_class_name class_id) = inr name ∧
     call (get_crystal_system_info class_id) =
       inr (info_dict name (VStr description) (VList examples)) ∧
     String.prefix "Unknown" name = false ∧ name ≠ "" ∧
     description ≠ "" ∧ description ≠ no_info ∧
     examples ≠ [] ∧ Forall (λ s, s ≠ "") examples) ∨
  ((class_id = None ∨ ∃ n, class_id = Some n ∧ ¬ (1 ≤ n ≤ 8)) ∧
   (∀ n, class_id = Some n → Z.abs n < 10 ^ 4300) ∧
   ∃ s,
     call (get_crystal_class_name class_id) = inr ("Unknown" +:+ s) ∧
     call (get_crystal_system_info class_id) =
       inr (info_dict ("Unknown" +:+ s) (VStr no_info) (VList []))) ∨
  (∃ n, class_id = Some n ∧ ¬ (1 ≤ n ≤ 8) ∧ ¬ (Z.abs n < 10 ^ 4300) ∧
     call (get_crystal_class_name class_id) = inl ValueError ∧
     call (get_crystal_system_info class_id) = inl ValueError).
Proof.
  destruct (call_name_cases class_id)
    as [[-> Hcall]|[(n & s & -> & Hn & _)|[(n & -> & Hn & Hcap & Hcall)
       |(n & -> & Hn & Hcap & Hcall)]]].
  - right; left. split_and!; [by left | done |]. exists "". split; [done|].
    apply call_info_default; [done|]. apply (CRYSTAL_SYSTEM_INFO_None "").
  - left. destruct (call_known n Hn)
      as (name & entry & d & x & _ & Hname & _ & _ & _ & Hinfo & Hrest).
    exists n, name, d, x. split_and!; try done; try lia; apply Hrest.
  - right; left. split_and!; [right; eauto | by intros ? [= <-] |].
    exists (" Crystal Class (" +:+ decimal n +:+ ")"). split; [done|].
    apply call_info_default; [done|].
    apply (CRYSTAL_SYSTEM_INFO_None (" Crystal Class (" +:+ _)).
  - right; right. exists n. split_and!; try done.
    by apply call_info_raise.
Qed.

(** ** NameLookup *)

(** C1: for each identifier 1 to 8, [get_crystal_class_name] returns the
    fixed name of the class table: 1 "Isometric (Cubic)", 2 "Hexagonal",
    3 "Tetragonal", 4 "Orthorhombic", 5 "Monoclinic", 6 "Triclinic",
    7 "Trigonal", 8 "Amorphous". *)
Theorem class_name_of_table_ids :
  call (get_crystal_class_name (Some 1)) = inr "Isometric (Cubic)" ∧
  call (get_crystal_class_name (Some 2)) = inr "Hexagonal" ∧
  call (get_crystal_class_name (Some 3)) = inr "Tetragonal" ∧
  call (get_crystal_class_name (Some 4)) = inr "Orthorhombic" ∧
  call (get_crystal_class_name (Some 5)) = inr "Monoclinic" ∧
  call (get_crystal_class_name (Some 6)) = inr "Triclinic" ∧
  call (get_crystal_class_name (Some 7)) = inr "Trigonal" ∧
  call (get_crystal_class_name (Some 8)) = inr "Amorphous".
Proof. split_and!; vm_compute; reflexivity. Qed.




(** C3: when the identifier is absent ([None]), [get_crystal_class_name]
    returns the literal string "Unknown". *)
Theorem class_name_of_None :
  call (get_crystal_class_name None) = inr "Unknown".
Proof. reflexivity. Qed.

(** ** InfoLookup *)

(** C4: when the resolved name is not a key of the info table,
    [get_crystal_system_info] returns the dictionary with that name, the
    description "No additional information available for this crystal
    system." and no examples.  This is the case of the absent identifier and
    of every integer outside 1 to 8, and gives the two dictionaries stated
    for [None] and for 99. *)
Theorem info_of_unknown_name (class_id : option Z) (name : string) :
  call (get_crystal_class_name class_id) = inr name →
  (CRYSTAL_SYSTEM_INFO !! name = None →
   call (get_crystal_system_info class_id) =
     inr (dict_literal [
       ("name", VStr name);
       ("description", VStr "No additional information available for this crystal system.");
       ("examples", VList [])
     ])) ∧
  (class_id = None ∨ (∃ n, class_id = Some n ∧ ¬ (1 ≤ n ≤ 8)) →
   CRYSTAL_SYSTEM_INFO !! name = None) ∧
  call (get_crystal_system_info None) =
    inr (dict_literal [
      ("name", VStr "Unknown");
      ("description", VStr "No additional information available for this crystal system.");
      ("examples", VList [])
    ]) ∧
  call (get_crystal_system_info (Some 99)) =
    inr (dict_literal [
      ("name", VStr "Unknown Crystal Class (99)");
      ("description", VStr "No additional information available for this crystal system.");
      ("examples", VList [])
    ]).
Proof.
  intros Hname. split_and!.
  - intros Hnone. by apply call_info_default.
  - intros Hunk. destruct (call_unknown class_id name Hname Hunk) as (s & ->).
    apply CRYSTAL_SYSTEM_INFO_None.
  - apply (call_info_default None "Unknown"); [done|].
    apply (CRYSTAL_SYSTEM_INFO_None "").
  - apply (call_info_default (Some 99) "Unknown Crystal Class (99)").
    + vm_compute; reflexivity.
    + apply (CRYSTAL_SYSTEM_INFO_None " Crystal Class (99)").
Qed.

Lemma info_of_unknown_name_witness :
  call (get_crystal_class_name (Some 0)) = inr "Unknown Crystal Class (0)" ∧
  call (get_crystal_system_info (Some 0)) =
    inr (dict_literal [
      ("name", VStr "Unknown Crystal Class (0)");
      ("description", VStr "No additional information available for this crystal system.");
      ("examples", VList [])
    ]).
Proof.
  assert (Hname : call (get_crystal_class_name (Some 0))
                  = inr "Unknown Crystal Class (0)") by (vm_compute; reflexivity).
  split; [exact Hname|].
  destruct (info_of_unknown_name (Some 0) "Unknown Crystal Class (0)" Hname)
    as (Hdefault & Hunk & _).
  apply Hdefault, Hunk. right. exists 0. split; [reflexivity | lia].
Defined.

(** C5: for every identifier, an integer or [None], the value under "name"
    in the dictionary returned by [get_crystal_system_info] is the string
    returned by [get_crystal_class_name] on the same identifier: whenever
    one of the two calls returns so does the other, with that name, and an
    exception of one is the exception of the other. *)
Theorem info_name_is_class_name (class_id : option Z) :
  (∀ info : gmap string value,
     call (get_crystal_system_info class_id) = inr info →
     ∃ name : string,
       call (get_crystal_class_name class_id) = inr name ∧
       info !! "name" = Some (VStr name)) ∧
  (∀ name : string,
     call (get_crystal_class_name class_id) = inr name →
     ∃ info : gmap string value,
       call (get_crystal_system_info class_id) = inr info ∧
       info !! "name" = Some (VStr name)) ∧
  (∀ e : exn,
     call (get_crystal_system_info class_id) = inl e ↔
     call (get_crystal_class_name class_id) = inl e).
Proof.
  destruct (call_both_cases class_id)
    as [(n & name & d & x & _ & _ & Hname & Hinfo & _)
       |[(_ & _ & s & Hname & Hinfo)|(n & _ & _ & _ & Hname & Hinfo)]];
    rewrite Hname, Hinfo; split_and!.
  - intros info [= <-]. exists name. split; [done | apply info_dict_lookup].
  - intros name' [= <-]. eexists. split; [done | apply info_dict_lookup].
  - done.
  - intros info [= <-]. eexists. split; [done | apply info_dict_lookup].
  - intros name' [= <-]. eexists. split; [done | apply info_dict_lookup].
  - done.
  - done.
  - done.
  - intros e. split; by intros [= <-].
Qed.

Lemma info_name_is_class_name_witness :
  call (get_crystal_system_info (Some 5)) =
    inr (info_dict "Monoclinic"
           (VStr "Has three unequal axes with one oblique intersection. Includes minerals like gypsum and orthoclase.")
           (VList ["Gypsum"; "Orthoclase"; "Hornblende"; "Malachite"])) ∧
  ∃ name : string,
    call (get_crystal_class_name (Some 5)) = inr name ∧
    info_dict "Monoclinic"
      (VStr "Has three unequal axes with one oblique intersection. Includes minerals like gypsum and orthoclase.")
      (VList ["Gypsum"; "Orthoclase"; "Hornblende"; "Malachite"])
      !! "name" = Some (VStr name).
Proof.
  assert (Hinfo : call (get_crystal_system_info (Some 5)) =
    inr (info_dict "Monoclinic"
           (VStr "Has three unequal axes with one oblique intersection. Includes minerals like gypsum and orthoclase.")
           (VList ["Gypsum"; "Orthoclase"; "Hornblende"; "Malachite"])))
    by (vm_compute; reflexivity).
  split; [exact Hinfo|].
  exact (proj1 (info_name_is_class_name (Some 5)) _ Hinfo).
Defined.

(** C6: for every identifier from 1 to 8, the dictionary returned by
    [get_crystal_system_info] carries the description and the examples of the
    info table's entry for that crystal system; the description is a
    non-empty string and the examples a non-empty list.  For 1 the examples
    are Pyrite, Halite, Fluorite, Galena, Diamond. *)
Theorem info_of_table_ids (n : Z) :
  1 ≤ n ≤ 8 →
  (∃ (name : string) (entry : gmap string value)
     (description : string) (examples : list string),
     CRYSTAL_CLASS_LOOKUP !! n = Some name ∧
     CRYSTAL_SYSTEM_INFO !! name = Some entry ∧
     entry !! "description" = Some (VStr description) ∧
     entry !! "examples" = Some (VList examples) ∧
     call (get_crystal_system_info (Some n)) =
       inr (dict_literal [
         ("name", VStr name);
         ("description", VStr description);
         ("examples", VList examples)
       ]) ∧
     description ≠ "" ∧ examples ≠ []) ∧
  (∃ info : gmap string value,
     call (get_crystal_system_info (Some 1)) = inr info ∧
     info !! "examples" =
       Some (VList ["Pyrite"; "Halite"; "Fluorite"; "Galena"; "Diamond"])).
Proof.
  intros Hn. split.
  - destruct (call_known n Hn)
      as (name & entry & d & e & Hlook & _ & Hentry & Hd & He & Hinfo
          & _ & _ & Hdne & _ & Hene & _).
    by exists name, entry, d, e.
  - eexists. split; [vm_compute; reflexivity|]. vm_compute; reflexivity.
Qed.

Lemma info_of_table_ids_witness :
  1 ≤ 7 ≤ 8 ∧
  ∃ (name : string) (entry : gmap string value)
    (description : string) (examples : list string),
    CRYSTAL_CLASS_LOOKUP !! 7 = Some name ∧
    CRYSTAL_SYSTEM_INFO !! name = Some entry ∧
    entry !! "description" = Some (VStr description) ∧
    entry !! "examples" = Some (VList examples) ∧
    call (get_crystal_system_info (Some 7)) =
      inr (dict_literal [
        ("name", VStr name);
        ("description", VStr description);
        ("examples", VList examples)
      ]) ∧
    description ≠ "" ∧ examples ≠ [].
Proof. split; [lia|]. apply (info_of_table_ids 7). lia. Defined.

(** ** Totality and purity *)

(** C7, as the code has it: both functions return on [None] and on every
    integer of at most 4300 decimal digits: [get_crystal_class_name] a
    string and [get_crystal_system_info] a dictionary.  The only exception
    of either function is the [ValueError] of an integer with more
    digits. *)
Theorem calls_return_within_cap (class_id : option Z) :
  ((∀ n : Z, class_id = Some n → Z.abs n < 10 ^ 4300) →
   (∃ name : string, call (get_crystal_class_name class_id) = inr name) ∧
   (∃ info : gmap string value,
      call (get_crystal_system_info class_id) = inr info)) ∧
  (∀ e : exn,
     call (get_crystal_class_name class_id) = inl e ∨
     call (get_crystal_system_info class_id) = inl e →
     e = ValueError ∧ ∃ n : Z, class_id = Some n ∧ 10 ^ 4300 ≤ Z.abs n).
Proof.
  destruct (call_both_cases class_id)
    as [(n & name & d & x & _ & _ & Hname & Hinfo & _)
       |[(_ & _ & s & Hname & Hinfo)|(n & -> & _ & Hcap & Hname & Hinfo)]];
    rewrite Hname, Hinfo; split.
  - eauto.
  - by intros e [?|?].
  - eauto.
  - by intros e [?|?].
  - intros Hin. destruct Hcap. by apply Hin.
  - intros e He. split; [by destruct He as [[= <-]|[= <-]]|].
    exists n. split; [done|].
    revert Hcap. generalize (10 ^ 4300). lia.
Qed.

Lemma calls_return_within_cap_witness :
  (∀ n : Z, Some 99 = Some n → Z.abs n < 10 ^ 4300) ∧
  (∃ name : string, call (get_crystal_class_name (Some 99)) = inr name) ∧
  (∃ info : gmap string value,
     call (get_crystal_system_info (Some 99)) = inr info).
Proof.
  assert (Hcap : ∀ n : Z, Some 99 = Some n → Z.abs n < 10 ^ 4300)
    by (intros n [= <-]; apply small_within_cap; lia).
  split; [exact Hcap|].
  exact (proj1 (calls_return_within_cap (Some 99)) Hcap).
Defined.

(** C7 does not hold for every integer: on the 4300th power of ten, and on
    its negative, both functions raise [ValueError]. *)
Lemma calls_raise_over_cap :
  call (get_crystal_class_name (Some (10 ^ 4300))) = inl ValueError ∧
  call (get_crystal_system_info (Some (10 ^ 4300))) = inl ValueError ∧
  call (get_crystal_class_name (Some (- 10 ^ 4300))) = inl ValueError ∧
  call (get_crystal_system_info (Some (- 10 ^ 4300))) = inl ValueError.
Proof.
  assert (H1 : call (get_crystal_class_name (Some (10 ^ 4300)))
               = inl ValueError).
  { apply call_name_over_cap. pose proof cap_ge_10.
    generalize dependent (10 ^ 4300). lia. }
  assert (H2 : call (get_crystal_class_name (Some (- 10 ^ 4300)))
               = inl ValueError).
  { apply call_name_over_cap. pose proof cap_ge_10.
    generalize dependent (10 ^ 4300). lia. }
  split_and!.
  - exact H1.
  - apply call_info_raise. exact H1.
  - exact H2.
  - apply call_info_raise. exact H2.
Qed.

(** C8: both functions are deterministic and pure.  Whatever the store, a
    call leaves it as it found it; hence a call made after an earlier call
    to either function, with the same argument or another, has the outcome
    it would have had without the earlier call: calling twice with the same
    input gives the same output twice. *)
Theorem calls_pure_and_repeatable (g : globals) (class_id earlier : option Z) :
  let g1 := (get_crystal_class_name earlier g).2 in
  let g2 := (get_crystal_system_info earlier g).2 in
  g1 = g ∧ g2 = g ∧
  get_crystal_class_name class_id g1 = get_crystal_class_name class_id g ∧
  get_crystal_class_name class_id g2 = get_crystal_class_name class_id g ∧
  get_crystal_system_info class_id g1 = get_crystal_system_info class_id g ∧
  get_crystal_system_info class_id g2 = get_crystal_system_info class_id g.
Proof.
  intros g1 g2.
  assert (g1 = g) as -> by (subst g1; by rewrite get_crystal_class_name_run).
  assert (g2 = g) as -> by (subst g2; by rewrite get_crystal_system_info_run).
  by split_and!.
Qed.

(** ** The two tables agree *)

(** C9: the names in the class table are exactly the keys of the info table.
    Hence for an identifier from 1 to 8 [get_crystal_system_info] finds an
    entry under the resolved name and returns its description and examples,
    which are not those of the default entry; and every entry of the info
    table is returned in this way for some identifier from 1 to 8. *)
Theorem class_names_are_info_keys :
  map_img CRYSTAL_CLASS_LOOKUP = dom CRYSTAL_SYSTEM_INFO ∧
  (∀ n : Z, 1 ≤ n ≤ 8 →
     ∃ (name : string) (entry : gmap string value)
       (description examples : value),
       call (get_crystal_class_name (Some n)) = inr name ∧
       CRYSTAL_SYSTEM_INFO !! name = Some entry ∧
       entry !! "description" = Some description ∧
       entry !! "examples" = Some examples ∧
       call (get_crystal_system_info (Some n)) =
         inr (dict_literal [
           ("name", VStr name);
           ("description", description);
           ("examples", examples)
         ]) ∧
       description ≠
         VStr "No additional information available for this crystal system." ∧
       examples ≠ VList []) ∧
  (∀ (key : string) (entry : gmap string value),
     CRYSTAL_SYSTEM_INFO !! key = Some entry →
     ∃ (n : Z) (description examples : value),
       1 ≤ n ≤ 8 ∧
       call (get_crystal_class_name (Some n)) = inr key ∧
       entry !! "description" = Some description ∧
       entry !! "examples" = Some examples ∧
       call (get_crystal_system_info (Some n)) =
         inr (dict_literal [
           ("name", VStr key);
           ("description", description);
           ("examples", examples)
         ])).
Proof.
  assert (Himg : map_img CRYSTAL_CLASS_LOOKUP = dom CRYSTAL_SYSTEM_INFO)
    by (vm_compute; reflexivity).
  split_and!; [done|..].
  - intros n Hn.
    destruct (call_known n Hn)
      as (name & entry & d & x & _ & Hname & Hentry & Hd & Hx & Hinfo
          & _ & _ & _ & Hdne & Hxne & _).
    exists name, entry, (VStr d), (VList x).
    split_and!; try done; intros [= ?]; done.
  - intros key entry Hkey.
    assert (Hin : key ∈ dom CRYSTAL_SYSTEM_INFO) by (apply elem_of_dom; eauto).
    rewrite <-Himg in Hin. apply elem_of_map_img in Hin as [n Hlook].
    assert (Hn : 1 ≤ n ≤ 8).
    { destruct (decide (1 ≤ n ≤ 8)) as [|Hout]; [done|].
      by rewrite (CRYSTAL_CLASS_LOOKUP_None n Hout) in Hlook. }
    destruct (call_known n Hn)
      as (name & entry' & d & x & Hlook' & Hname & Hentry & Hd & Hx & Hinfo & _).
    rewrite Hlook in Hlook'. injection Hlook' as <-.
    rewrite Hkey in Hentry. injection Hentry as <-.
    by exists n, (VStr d), (VList x).
Qed.

Lemma class_names_are_info_keys_witness :
  1 ≤ 4 ≤ 8 ∧
  ∃ (name : string) (entry : gmap string value)
    (description examples : value),
    call (get_crystal_class_name (Some 4)) = inr name ∧
    CRYSTAL_SYSTEM_INFO !! name = Some entry ∧
    entry !! "description" = Some description ∧
    entry !! "examples" = Some examples ∧
    call (get_crystal_system_info (Some 4)) =
      inr (dict_literal [
        ("name", VStr name);
        ("description", description);
        ("examples", examples)
      ]) ∧
    description ≠
      VStr "No additional information available for this crystal system." ∧
    examples ≠ VList [].
Proof.
  split; [lia|]. apply (proj1 (proj2 class_names_are_info_keys) 4). lia.
Defined.




(** ** Further properties of the two functions *)

(** X1: in any state of the two tables, a dictionary returned by
    [get_crystal_system_info] has exactly the keys "name", "description" and
    "examples" (further keys of a table entry are not passed on), and its
    "name" is the string [get_crystal_class_name] returns in that state. *)
Theorem info_result_keys (g : globals) (class_id : option Z)
    (info : gmap string value) :
  (get_crystal_system_info class_id g).1 = inr info →
  dom info = {["name"; "description"; "examples"]} ∧
  ∃ name : string,
    (get_crystal_class_name class_id g).1 = inr name ∧
    info !! "name" = Some (VStr name).
Proof.
  rewrite get_crystal_system_info_run. cbn [fst].
  destruct (get_crystal_class_name class_id g).1 as [e|name]; [done|].
  cbv zeta. set (entry := dict_get _ _ _).
  destruct (entry !! "description") as [d|]; [|done].
  destruct (entry !! "examples") as [x|]; [|done].
  intros [= <-]. split; [apply dom_info_dict|].
  exists name. split; [done | apply info_dict_lookup].
Qed.

Lemma info_result_keys_witness :
  ∃ info : gmap string value,
    (get_crystal_system_info None module_globals).1 = inr info ∧
    dom info = {["name"; "description"; "examples"]} ∧
    ∃ name : string,
      (get_crystal_class_name None module_globals).1 = inr name ∧
      info !! "name" = Some (VStr name).
Proof.
  exists (info_dict "Unknown" (VStr no_info) (VList [])).
  assert (Hrun : (get_crystal_system_info None module_globals).1
                 = inr (info_dict "Unknown" (VStr no_info) (VList [])))
    by (vm_compute; reflexivity).
  split; [exact Hrun|].
  exact (info_result_keys module_globals None _ Hrun).
Defined.



(** X3: a caller can tell an identifier without table entry from the
    result: the examples are the empty list exactly when the identifier is
    [None] or an integer outside 1 to 8, and so is the description the one of
    the default entry. *)
Theorem info_default_iff_unknown (class_id : option Z)
    (info : gmap string value) :
  call (get_crystal_system_info class_id) = inr info →
  (info !! "examples" = Some (VList []) ↔
   class_id = None ∨ ∃ n, class_id = Some n ∧ ¬ (1 ≤ n ≤ 8)) ∧
  (info !! "description" =
     Some (VStr "No additional information available for this crystal system.") ↔
   class_id = None ∨ ∃ n, class_id = Some n ∧ ¬ (1 ≤ n ≤ 8)).
Proof.
  intros Hinfo.
  destruct (call_both_cases class_id)
    as [(n & name & d & x & -> & Hn & _ & Hcall & _ & _ & _ & Hd & Hx & _)
       |[(Hunk & _ & s & _ & Hcall)|(n & _ & _ & _ & _ & Hcall)]];
    rewrite Hcall in Hinfo; [| |done]; injection Hinfo as <-.
  - destruct (info_dict_lookup name (VStr d) (VList x)) as (_ & -> & ->).
    split; (split; [intros [= ?]; done | intros [[=]|(? & [= <-] & ?)]; lia]).
  - destruct (info_dict_lookup ("Unknown" +:+ s) (VStr no_info) (VList []))
      as (_ & -> & ->).
    by split.
Qed.

Lemma info_default_iff_unknown_witness :
  call (get_crystal_system_info (Some 0)) =
    inr (info_dict "Unknown Crystal Class (0)" (VStr no_info) (VList [])) ∧
  (info_dict "Unknown Crystal Class (0)" (VStr no_info) (VList [])
     !! "examples" = Some (VList []) ↔
   Some 0 = None ∨ ∃ n, Some 0 = Some n ∧ ¬ (1 ≤ n ≤ 8)).
Proof.
  assert (Hinfo : call (get_crystal_system_info (Some 0)) =
    inr (info_dict "Unknown Crystal Class (0)" (VStr no_info) (VList [])))
    by (vm_compute; reflexivity).
  split; [exact Hinfo|].
  exact (proj1 (info_default_iff_unknown (Some 0) _ Hinfo)).
Defined.

(** X4: the name tells it as well: [get_crystal_class_name] returns a string
    starting with "Unknown" exactly when the identifier is [None] or an
    integer outside 1 to 8. *)
Theorem name_unknown_prefix_iff (class_id : option Z) (name : string) :
  call (get_crystal_class_name class_id) = inr name →
  String.prefix "Unknown" name = true ↔
  class_id = None ∨ ∃ n, class_id = Some n ∧ ¬ (1 ≤ n ≤ 8).
Proof.
  intros Hname.
  destruct (call_both_cases class_id)
    as [(n & name' & _ & _ & -> & Hn & Hcall & _ & Hpre & _)
       |[(Hunk & _ & s & Hcall & _)|(n & _ & _ & _ & Hcall & _)]];
    rewrite Hcall in Hname; [| |done]; injection Hname as <-.
  - rewrite Hpre. split; [done|]. intros [[=]|(? & [= <-] & ?)]; lia.
  - split; [by intros _ | intros _; by destruct s].
Qed.

Lemma name_unknown_prefix_iff_witness :
  call (get_crystal_class_name (Some (-1))) =
    inr "Unknown Crystal Class (-1)" ∧
  (String.prefix "Unknown" "Unknown Crystal Class (-1)" = true ↔
   Some (-1) = None ∨ ∃ n, Some (-1) = Some n ∧ ¬ (1 ≤ n ≤ 8)).
Proof.
  assert (Hname : call (get_crystal_class_name (Some (-1))) =
    inr "Unknown Crystal Class (-1)") by (vm_compute; reflexivity).
  split; [exact Hname|].
  exact (name_unknown_prefix_iff (Some (-1)) _ Hname).
Defined.

(** X5: whenever [get_crystal_system_info] returns, the result can be
    displayed: the name and the description are non-empty strings, and the
    examples are a list of non-empty strings. *)
Theorem info_displayable (class_id : option Z) (info : gmap string value) :
  call (get_crystal_system_info class_id) = inr info →
  ∃ (name description : string) (examples : list string),
    call (get_crystal_class_name class_id) = inr name ∧
    info = dict_literal [
      ("name", VStr name);
      ("description", VStr description);
      ("examples", VList examples)
    ] ∧
    name ≠ "" ∧ description ≠ "" ∧ Forall (λ s, s ≠ "") examples.
Proof.
  intros Hinfo.
  destruct (call_both_cases class_id)
    as [(n & name & d & x & _ & _ & Hname & Hcall & _ & Hne & Hd & _ & _ & Hx)
       |[(_ & _ & s & Hname & Hcall)|(n & _ & _ & _ & _ & Hcall)]];
    rewrite Hcall in Hinfo; [| |done]; injection Hinfo as <-.
  - by exists name, d, x.
  - exists ("Unknown" +:+ s), no_info, []. by split_and!.
Qed.

Lemma info_displayable_witness :
  call (get_crystal_system_info None) =
    inr (info_dict "Unknown" (VStr no_info) (VList [])) ∧
  ∃ (name description : string) (examples : list string),
    call (get_crystal_class_name None) = inr name ∧
    info_dict "Unknown" (VStr no_info) (VList []) = dict_literal [
      ("name", VStr name);
      ("description", VStr description);
      ("examples", VList examples)
    ] ∧
    name ≠ "" ∧ description ≠ "" ∧ Forall (λ s, s ≠ "") examples.
Proof.
  assert (Hinfo : call (get_crystal_system_info None) =
    inr (info_dict "Unknown" (VStr no_info) (VList [])))
    by (vm_compute; reflexivity).
  split; [exact Hinfo|].
  exact (info_displayable None _ Hinfo).
Defined.

(** A value found in a dictionary display is the value of one of its
    items. *)
Lemma foldl_insert_lookup_Some `{Countable K} {V} (items : list (K * V))
    (d : gmap K V) (k : K) (v : V) :
  foldl (λ d kv, <[kv.1 := kv.2]> d) d items !! k = Some v →
  (k, v) ∈ items ∨ d !! k = Some v.
Proof.
  revert d. induction items as [|[k' v'] items IH]; intros d; cbn [foldl].
  - by right.
  - intros [Hin|Hins]%IH; [left; by right|].
    cbn [fst snd] in Hins.
    apply lookup_insert_Some in Hins as [[-> ->]|[_ Hd]];
      [left; by left | by right].
Qed.

Lemma dict_literal_lookup_Some `{Countable K} {V} (items : list (K * V))
    (k : K) (v : V) :
  dict_literal items !! k = Some v → (k, v) ∈ items.
Proof.
  intros [Hin|Hempty]%foldl_insert_lookup_Some; [done|].
  by rewrite lookup_empty in Hempty.
Qed.

(** A display with the two keys of an info table entry. *)
Lemma entry_display (description examples : value) :
  let entry :=
    dict_literal [("description", description); ("examples", examples)] in
  dom entry = ({["description"; "examples"]} : gset string) ∧
  entry !! "description" = Some description ∧
  entry !! "examples" = Some examples.
Proof.
  unfold dict_literal; cbn [foldl fst snd]. split_and!.
  - rewrite !dom_insert_L, dom_empty_L. set_solver.
  - rewrite lookup_insert_ne by done. apply lookup_insert_eq.
  - apply lookup_insert_eq.
Qed.

(** X6: every entry of the info table has exactly the two keys
    [get_crystal_system_info] subscripts, a non-empty string under
    "description" and, under "examples", a non-empty list of non-empty
    mineral names without repetition. *)
Theorem info_entries_well_formed (name : string)
    (entry : gmap string value) :
  CRYSTAL_SYSTEM_INFO !! name = Some entry →
  dom entry = {["description"; "examples"]} ∧
  ∃ (description : string) (examples : list string),
    entry !! "description" = Some (VStr description) ∧
    entry !! "examples" = Some (VList examples) ∧
    description ≠ "" ∧ examples ≠ [] ∧
    Forall (λ s, s ≠ "") examples ∧ NoDup examples.
Proof.
  intros Hin%dict_literal_lookup_Some.
  repeat (apply elem_of_cons in Hin as [Heq|Hin];
    [injection Heq as -> ->;
     match goal with
     | |- context [dict_literal [(_, VStr ?d); (_, VList ?x)]] =>
         destruct (entry_display (VStr d) (VList x)) as (Hdom & Hd & Hx);
         split; [exact Hdom|]; exists d, x
     end;
     split_and!; [exact Hd | exact Hx | discriminate | discriminate
                 | repeat constructor; discriminate
                 | apply (bool_decide_unpack _); vm_compute; exact I]|]).
  by apply elem_of_nil in Hin.
Qed.

Lemma info_entries_well_formed_witness :
  ∃ entry : gmap string value,
    CRYSTAL_SYSTEM_INFO !! "Amorphous" = Some entry ∧
    dom entry = {["description"; "examples"]} ∧
    ∃ (description : string) (examples : list string),
      entry !! "description" = Some (VStr description) ∧
      entry !! "examples" = Some (VList examples) ∧
      description ≠ "" ∧ examples ≠ [] ∧
      Forall (λ s, s ≠ "") examples ∧ NoDup examples.
Proof.
  eexists. split; [reflexivity|].
  apply (info_entries_well_formed "Amorphous"). reflexivity.
Defined.
